(** * MQT NAViz: the Python package initialiser and the Sphinx configuration

    The Python side of the repository is two modules:

    - [python/mqt/naviz/__init__.py], which re-exports the version string of
      the generated module [mqt.naviz._version] as [__version__] and lists it
      in [__all__];
    - [docs/conf.py], the Sphinx configuration, which asks
      [importlib.metadata] for the installed version, strips the local
      version label after ["+"] to obtain [release], and declares, among
      other settings, [intersphinx_mapping] and [rust_crates].

    A Python module is embedded as the function from the state of the
    interpreter it reads (importable modules, installed distributions) to the
    namespace it leaves behind, or to the exception it raises.  Dictionaries
    are [gmap]s with string keys, [str] is [string], and the part of the
    Python runtime the two modules call ([str.split], subscription,
    [from m import ...]) is modelled in [Module Py]. *)

From Stdlib Require Import Ascii.
From stdpp Require Import gmap strings list fin_maps.

Set Warnings "-clear-no-such-hyp".

(** ** The part of the Python runtime the two modules use *)

Module Py.

(** Exceptions the modelled operations can raise. *)
Inductive exn : Type :=
| ValueError
| IndexError
| TypeError
| AttributeError
| ImportError
| ModuleNotFoundError
| PackageNotFoundError.

(** The outcome of evaluating an expression or running a statement. *)
Inductive result (A : Type) : Type :=
| Ok (a : A)
| Raise (e : exn).
Arguments Ok {A} a.
Arguments Raise {A} e.

#[global] Instance result_ret : MRet result := @Ok.
#[global] Instance result_bind : MBind result := λ A B f r,
  match r with
  | Ok a => f a
  | Raise e => Raise e
  end.

(** Objects that can be bound in the namespace of a module. *)
#[warnings="-register-all"]
Inductive value : Type :=
| VNone
| VBool (b : bool)
| VInt (n : Z)
| VStr (s : string)
| VList (xs : list value)
| VTuple (xs : list value)
| VFeature (name : string)
| VModule (name : string).

(** A module's [__dict__]. *)
Abbreviation namespace := (gmap string value).

(** [c in s] for a one-character [c]. *)
Fixpoint contains (s : string) (c : ascii) : bool :=
  match s with
  | EmptyString => false
  | String a s' => if Ascii.eqb a c then true else contains s' c
  end.

(** The scan behind [s.split(sep)] for a non-empty [sep], from left to
    right: [cur] is the piece being collected, and [skip] counts the
    characters of a separator just matched that are still to be passed
    over. *)
Fixpoint split_from (sep : string) (skip : nat) (cur s : string) : list string :=
  match s with
  | EmptyString => [cur]
  | String a s' =>
      match skip with
      | S k => split_from sep k cur s'
      | O =>
          if String.prefix sep s
          then cur :: split_from sep (String.length sep - 1) EmptyString s'
          else split_from sep 0 (cur +:+ String a EmptyString) s'
      end
  end.

(** [s.split(sep)]: an empty separator is a [ValueError]. *)
Definition str_split (s sep : string) : result (list string) :=
  match sep with
  | EmptyString => Raise ValueError
  | _ => Ok (split_from sep 0 EmptyString s)
  end.

(** [sep.join(xs)] on a list of strings. *)
Fixpoint str_join (sep : string) (xs : list string) : string :=
  match xs with
  | [] => EmptyString
  | [x] => x
  | x :: xs' => x +:+ sep +:+ str_join sep xs'
  end.

(** [xs[i]] on a list: negative indices count from the end, and an index
    out of range is an [IndexError]. *)
Definition subscript {A : Type} (xs : list A) (i : Z) : result A :=
  let n := Z.of_nat (length xs) in
  let j := if (i <? 0)%Z then (i + n)%Z else i in
  if (j <? 0)%Z then Raise IndexError
  else match xs !! Z.to_nat j with
       | Some x => Ok x
       | None => Raise IndexError
       end.

(** A dictionary display [{k1: v1, ..., kn: vn}]: the items are inserted
    from left to right, a later item replacing an earlier one with the same
    key. *)
Fixpoint dict_update {V : Type} (d : gmap string V) (items : list (string * V))
  : gmap string V :=
  match items with
  | [] => d
  | (k, v) :: items' => dict_update (<[k := v]> d) items'
  end.

Definition dict_display {V : Type} (items : list (string * V)) : gmap string V :=
  dict_update ∅ items.

(** [from modname import name]: the module must be importable and must have
    the attribute. [modules] maps the full name of each importable module to
    its namespace. *)
Definition import_from (modules : gmap string namespace) (modname name : string)
  : result value :=
  match modules !! modname with
  | None => Raise ModuleNotFoundError
  | Some m =>
      match m !! name with
      | None => Raise ImportError
      | Some v => Ok v
      end
  end.

(** The names in [__all__], which must be strings. *)
Fixpoint str_items (xs : list value) : result (list string) :=
  match xs with
  | [] => Ok []
  | VStr s :: xs' => names ← str_items xs'; Ok (s :: names)
  | _ :: _ => Raise TypeError
  end.

(** The bindings of the names [names] in [m]; a missing one is an
    [AttributeError]. *)
Fixpoint getattrs (m : namespace) (names : list string) (acc : namespace)
  : result namespace :=
  match names with
  | [] => Ok acc
  | n :: names' =>
      match m !! n with
      | None => Raise AttributeError
      | Some v => getattrs m names' (<[n := v]> acc)
      end
  end.

(** The names [from m import *] binds in the importing namespace: those
    listed in [__all__] when the module defines it, and otherwise every name
    of the module that does not start with an underscore. *)
Definition import_star (m : namespace) : result namespace :=
  match m !! "__all__" with
  | Some (VList xs) | Some (VTuple xs) =>
      names ← str_items xs; getattrs m names ∅
  | Some _ => Raise TypeError
  | None => Ok (filter (λ kv, String.prefix "_" kv.1 = false) m)
  end.

(** A module body: its statements run in order on the module's namespace,
    and the first exception ends the run. *)
Abbreviation stmt := (namespace → result namespace).

Fixpoint exec (body : list stmt) (g : namespace) : result namespace :=
  match body with
  | [] => Ok g
  | st :: rest => g' ← st g; exec rest g'
  end.

(** The module a relative import [from .name import ...] names, inside the
    package [package]. *)
Definition relative (package name : string) : string :=
  package +:+ "." +:+ name.

End Py.

(** ** [docs/conf.py] *)

Module conf.
Import Py.

Section version.
(** [importlib.metadata.version]: the version of an installed
    distribution, or [PackageNotFoundError]. *)
Variable metadata_version : string → result string.

Definition version : result string := metadata_version "mqt.naviz".

(** [version.split("+")[0]] *)
Definition release_of (version : string) : result string :=
  parts ← str_split version "+"; subscript parts 0.

Definition release : result string := v ← version; release_of v.

(** Lines 68 to 70: [myst_substitutions = {"version": version}]. *)
Definition myst_substitutions : result (gmap string string) :=
  v ← version; Ok (dict_display [("version", v)]).
End version.

Section version_opt.
(** [importlib.metadata.version] as the interpreter has it: the [Version]
    header of the installed distribution, [None] when the metadata of the
    distribution has no such header, or an exception when the distribution
    is not found. *)
Variable metadata_version : string → result (option string).

Definition version_opt : result (option string) := metadata_version "mqt.naviz".

(** Line 9 on that object: [None] has no attribute [split]. *)
Definition release_opt : result string :=
  v ← version_opt;
  match v with
  | Some s => release_of s
  | None => Raise AttributeError
  end.
End version_opt.

Definition intersphinx_mapping : gmap string (string * option string) :=
  dict_display [
    ("python", ("https://docs.python.org/3", None));
    ("numpy", ("https://numpy.org/doc/stable/", None));
    ("qiskit", ("https://docs.quantum.ibm.com/api/qiskit", None));
    ("mqt", ("https://mqt.readthedocs.io/en/latest", None));
    ("core", ("https://mqt.readthedocs.io/projects/core/en/latest", None));
    ("ddsim", ("https://mqt.readthedocs.io/projects/ddsim/en/latest", None));
    ("qcec", ("https://mqt.readthedocs.io/projects/qcec/en/latest", None));
    ("qecc", ("https://mqt.readthedocs.io/projects/qecc/en/latest", None));
    ("syrec", ("https://mqt.readthedocs.io/projects/syrec/en/latest", None))
  ].

Definition rust_crates : gmap string string :=
  dict_display [
    ("animator", "animator");
    ("bindings", "bindings");
    ("renderer", "renderer");
    ("repository", "repository");
    ("state", "state");
    ("video", "video")
  ].

End conf.

(** ** [python/mqt/naviz/__init__.py] *)

Module naviz.
Import Py.

(** The text of the file, line by line. *)
Definition dq : string := String "034"%char EmptyString.

Definition source : list string := [
  "# Copyright (c) 2023 - 2025 Chair for Design Automation, TUM";
  "# Copyright (c) 2025 Munich Quantum Software Company GmbH";
  "# All rights reserved.";
  "#";
  "# SPDX-License-Identifier: MIT";
  "#";
  "# Licensed under the MIT License";
  EmptyString;
  dq +:+ dq +:+ dq +:+ "MQT NAViz library." +:+ dq +:+ dq +:+ dq;
  EmptyString;
  "from __future__ import annotations";
  EmptyString;
  "from ._version import version as __version__";
  EmptyString;
  "__all__ = [";
  "    " +:+ dq +:+ "__version__" +:+ dq +:+ ",";
  "]"
].

Definition is_blank (line : string) : bool := String.eqb line EmptyString.
Definition is_comment (line : string) : bool := String.prefix "#" line.
Definition is_code (line : string) : bool :=
  negb (is_blank line) && negb (is_comment line).

(** The lines that import from the generated version module. *)
Definition is_version_import (line : string) : bool :=
  String.prefix "from ._version import " line.

Definition __package__ : string := "mqt.naviz".

(** The module [._version] stands for in this package. *)
Definition relative_version : string := relative __package__ "_version".

Section body.
(** The modules the import system can load, by full name. *)
Variable modules : gmap string namespace.

(** Line 9: the docstring. *)
Definition docstring : stmt := λ g,
  Ok (<["__doc__" := VStr "MQT NAViz library."]> g).

(** Line 11: [from __future__ import annotations]. *)
Definition import_annotations : stmt := λ g,
  v ← import_from modules "__future__" "annotations";
  Ok (<["annotations" := v]> g).

(** Line 13: [from ._version import version as __version__]. Loading the
    submodule also binds it, as [_version], in the package. *)
Definition import_version : stmt := λ g,
  v ← import_from modules relative_version "version";
  Ok (<["__version__" := v]> (<["_version" := VModule relative_version]> g)).

(** Lines 15 to 17: [__all__ = ["__version__"]]. *)
Definition assign_all : stmt := λ g,
  Ok (<["__all__" := VList [VStr "__version__"]]> g).

Definition body : list stmt :=
  [docstring; import_annotations; import_version; assign_all].

(** Running the initialiser on the namespace [g0] the import system hands
    it. *)
Definition init (g0 : namespace) : result namespace := exec body g0.
End body.

End naviz.

(** ** Notions the statements below are phrased with *)

(** The part of [s] before the first occurrence of [c], or all of [s] when
    [c] does not occur in it. *)
Fixpoint prefix_before (c : ascii) (s : string) : string :=
  match s with
  | EmptyString => EmptyString
  | String a s' =>
      if Ascii.eqb a c then EmptyString else String a (prefix_before c s')
  end.

(** [s.count(c)] for a one-character [c]. *)
Fixpoint count_char (s : string) (c : ascii) : nat :=
  match s with
  | EmptyString => 0
  | String a s' => (if Ascii.eqb a c then 1 else 0) + count_char s' c
  end.

(** An address of a documentation site: the scheme [https://], then a host
    name with a dot in it, then possibly a path. *)
Definition is_url (s : string) : bool :=
  let rest := String.substring 8 (String.length s - 8) s in
  let host := prefix_before "/" rest in
  String.prefix "https://" s && Py.contains host ".".

(** An interpreter in which the package is installed at a development
    version: the standard [__future__] module and the generated
    [mqt.naviz._version]. *)
Definition future_module : Py.namespace :=
  {["annotations" := Py.VFeature "annotations"]}.

Definition version_module : Py.namespace :=
  {["version" := Py.VStr "0.3.1.dev4+g1a2b3c4"]}.

Definition installed_modules : gmap string Py.namespace :=
  {["__future__" := future_module; "mqt.naviz._version" := version_module]}.


(** ** Strings *)

Section strings.
Implicit Types (s t cur : string) (a c : ascii).

Lemma app_cons a s t : String a s +:+ t = String a (s +:+ t).
Proof. reflexivity. Qed.

Lemma app_empty_r s : s +:+ EmptyString = s.
Proof. induction s as [|a s IH]; [done|]. by rewrite app_cons, IH. Qed.

Lemma app_snoc cur a t : (cur +:+ String a EmptyString) +:+ t = cur +:+ String a t.
Proof. induction cur as [|b cur IH]; [done|]. by rewrite !app_cons, IH. Qed.

(** A one-character separator matches exactly where that character
    stands. *)
Lemma prefix_single c a s :
  String.prefix (String c EmptyString) (String a s) = Ascii.eqb a c.
Proof.
  cbn. destruct (ascii_dec c a) as [->|Hne].
  - rewrite Ascii.eqb_refl. by destruct s.
  - symmetry. apply Ascii.eqb_neq. congruence.
Qed.

Lemma prefix_before_contains c s : Py.contains (prefix_before c s) c = false.
Proof.
  induction s as [|a s IH]; [done|]. cbn.
  destruct (Ascii.eqb a c) eqn:E; [done|]. cbn. by rewrite E.
Qed.

Lemma prefix_before_split c s :
  ∃ rest, s = prefix_before c s +:+ rest ∧
          (rest = EmptyString ∨ ∃ rest', rest = String c rest').
Proof.
  induction s as [|a s (rest & Hs & Hrest)].
  - exists EmptyString. split; [done|by left].
  - cbn. destruct (Ascii.eqb a c) eqn:E.
    + apply Ascii.eqb_eq in E as ->. exists (String c s). split; [done|].
      right. by exists s.
    + exists rest. split; [|done]. rewrite app_cons. by f_equal.
Qed.

Lemma prefix_before_prefix c s : String.prefix (prefix_before c s) s = true.
Proof.
  induction s as [|a s IH]; [done|]. cbn.
  destruct (Ascii.eqb a c); [done|]. cbn.
  destruct (ascii_dec a a); [apply IH|done].
Qed.

Lemma prefix_before_absent c s : Py.contains s c = false → prefix_before c s = s.
Proof.
  induction s as [|a s IH]; [done|]. cbn.
  destruct (Ascii.eqb a c); [done|]. intros H. by rewrite IH.
Qed.
End strings.

(** ** [str.split] and subscription *)

Section split.
Import Py.

(** Whatever the separator and wherever the scan stands, it yields at
    least the piece it is collecting. *)
Lemma split_from_nonempty sep skip cur s :
  ∃ x xs, split_from sep skip cur s = x :: xs.
Proof.
  revert skip cur. induction s as [|a s IH]; intros skip cur; cbn [split_from].
  - by exists cur, [].
  - destruct skip as [|k]; [|apply IH].
    destruct (String.prefix sep (String a s)); [|apply IH].
    by eexists _, _.
Qed.

(** With a one-character separator, the first piece is what has been
    collected followed by the text up to the next separator. *)
Lemma split_from_head c cur s :
  ∃ xs, split_from (String c EmptyString) 0 cur s = (cur +:+ prefix_before c s) :: xs.
Proof.
  revert cur. induction s as [|a s IH]; intros cur; cbn [split_from prefix_before].
  - exists []. by rewrite app_empty_r.
  - rewrite prefix_single. destruct (Ascii.eqb a c).
    + eexists. by rewrite app_empty_r.
    + destruct (IH (cur +:+ String a EmptyString)) as [xs ->].
      exists xs. by rewrite app_snoc.
Qed.

(** The examples of [str.split] in the Python library reference. *)
Example split_commas : str_split "1,2,3" "," = Ok ["1"; "2"; "3"].
Proof. reflexivity. Qed.

Example split_empty_pieces :
  str_split "1,2,,3," "," = Ok ["1"; "2"; EmptyString; "3"; EmptyString].
Proof. reflexivity. Qed.

Example split_long_separator : str_split "1<>2<>3<4" "<>" = Ok ["1"; "2"; "3<4"].
Proof. reflexivity. Qed.

Example split_empty_separator : str_split "1,2,3" EmptyString = Raise ValueError.
Proof. reflexivity. Qed.

Example split_empty_string : str_split EmptyString "+" = Ok [EmptyString].
Proof. reflexivity. Qed.

Example subscript_from_the_end : subscript ["a"; "b"; "c"] (-1) = Ok "c".
Proof. reflexivity. Qed.

Example subscript_out_of_range : subscript ["a"; "b"; "c"] 3 = Raise IndexError.
Proof. reflexivity. Qed.

Lemma subscript_head {A} (x : A) xs : subscript (x :: xs) 0 = Ok x.
Proof. reflexivity. Qed.

Lemma release_of_eq v : conf.release_of v = Ok (prefix_before "+" v).
Proof.
  unfold conf.release_of, str_split.
  destruct (split_from_head "+" EmptyString v) as [xs ->].
  reflexivity.
Qed.
End split.

(** ** Dictionary displays *)

Section dict_display.
Import Py.
Context {V : Type}.
Implicit Types (items : list (string * V)) (d : gmap string V).

Lemma dict_update_dom items d :
  dom (dict_update d items) = dom d ∪ list_to_set items.*1.
Proof.
  revert d. induction items as [|[k v] items IH]; intros d; cbn.
  - set_solver.
  - rewrite IH, dom_insert_L. set_solver.
Qed.

Lemma dict_update_lookup items d k v :
  dict_update d items !! k = Some v → (k, v) ∈ items ∨ d !! k = Some v.
Proof.
  revert d. induction items as [|[k' v'] items IH]; intros d; cbn.
  - by right.
  - intros [Hin | Hd]%IH.
    + left. by right.
    + destruct (decide (k' = k)) as [->|Hne].
      * rewrite lookup_insert_eq in Hd. injection Hd as ->. left. by left.
      * rewrite lookup_insert_ne in Hd by done. by right.
Qed.

(** The keys of a display are the keys of its items. *)
Lemma dict_display_dom items :
  dom (dict_display items) = list_to_set items.*1.
Proof. unfold dict_display. rewrite dict_update_dom. set_solver. Qed.

(** Every binding of a display is one of its items. *)
Lemma dict_display_lookup items k v :
  dict_display items !! k = Some v → (k, v) ∈ items.
Proof.
  unfold dict_display. intros [H | H]%dict_update_lookup; [done|].
  by rewrite lookup_empty in H.
Qed.

(** A property of all the items of a display holds of all its bindings. *)
Lemma dict_display_Forall (P : string → V → Prop) items :
  Forall (λ kv, P kv.1 kv.2) items →
  ∀ k v, dict_display items !! k = Some v → P k v.
Proof.
  intros HP k v Hin%dict_display_lookup.
  by apply (proj1 (Forall_forall _ _) HP (k, v)).
Qed.
End dict_display.

(** ** The Sphinx configuration *)

Section conf_facts.
  Import Py.

(** C2: when [metadata.version("mqt.naviz")] returns [v], [release] is the
    part of [v] before its first ["+"]: [v] is [release] followed by either
    nothing or a text that starts with ["+"], [release] holds no ["+"], it is
    a prefix of [v], and it is [v] itself when [v] holds no ["+"]. *)
Theorem release_is_version_before_plus
    (metadata_version : string → result string) (v : string) :
  metadata_version "mqt.naviz" = Ok v →
  ∃ r, conf.release metadata_version = Ok r ∧
       r = prefix_before "+" v ∧
       (∃ rest, v = r +:+ rest ∧
                (rest = EmptyString ∨ ∃ rest', rest = String "+" rest')) ∧
       contains r "+" = false ∧
       String.prefix r v = true ∧
       (contains v "+" = false → r = v).
Proof.
  intros Hv. exists (prefix_before "+" v).
  split; [|split; [done|]].
  - unfold conf.release, conf.version. rewrite Hv. cbn.
    apply release_of_eq.
  - split; [apply prefix_before_split|].
    split; [apply prefix_before_contains|].
    split; [apply prefix_before_prefix|apply prefix_before_absent].
Qed.

Lemma release_is_version_before_plus_witness :
  ∃ r, conf.release (λ _, Ok "0.3.1.dev4+g1a2b3c4") = Ok r ∧
       r = prefix_before "+" "0.3.1.dev4+g1a2b3c4" ∧
       (∃ rest, "0.3.1.dev4+g1a2b3c4" = r +:+ rest ∧
                (rest = EmptyString ∨ ∃ rest', rest = String "+" rest')) ∧
       contains r "+" = false ∧
       String.prefix r "0.3.1.dev4+g1a2b3c4" = true ∧
       (contains "0.3.1.dev4+g1a2b3c4" "+" = false → r = "0.3.1.dev4+g1a2b3c4").
Proof.
  apply (release_is_version_before_plus (λ _, Ok "0.3.1.dev4+g1a2b3c4")).
  reflexivity.
Defined.

(** C7: for every string [v], [v.split("+")] is a list with at least one
    element, so [v.split("+")[0]] raises nothing: [release] is computed for
    every version string. *)
Theorem release_never_fails (v : string) :
  (∃ x xs, str_split v "+" = Ok (x :: xs)) ∧
  (∃ r, conf.release_of v = Ok r).
Proof.
  destruct (split_from_nonempty "+" 0 EmptyString v) as (x & xs & Hsplit).
  split.
  - exists x, xs. unfold str_split. by rewrite Hsplit.
  - exists x. unfold conf.release_of, str_split. rewrite Hsplit.
    apply subscript_head.
Qed.

(** C3: [rust_crates] has exactly the six keys [animator], [bindings],
    [renderer], [repository], [state] and [video], and maps each of them to
    itself. *)
Theorem rust_crates_six_names :
  dom conf.rust_crates =
    {["animator"; "bindings"; "renderer"; "repository"; "state"; "video"]} ∧
  size conf.rust_crates = 6 ∧
  (∀ k v, conf.rust_crates !! k = Some v → v = k).
Proof.
  assert (Hdom : dom conf.rust_crates =
    {["animator"; "bindings"; "renderer"; "repository"; "state"; "video"]}).
  { unfold conf.rust_crates. rewrite dict_display_dom. cbn. set_solver. }
  split; [done|]. split.
  - rewrite <- size_dom, Hdom.
    rewrite !size_union, !size_singleton; [done|set_solver..].
  - unfold conf.rust_crates. apply dict_display_Forall.
    repeat constructor.
Qed.

Lemma rust_crates_six_names_witness :
  conf.rust_crates !! "renderer" = Some "renderer" ∧ "renderer" = "renderer".
Proof.
  split; [reflexivity|].
  apply (proj2 (proj2 rust_crates_six_names) "renderer" "renderer").
  reflexivity.
Defined.

(** C6: [intersphinx_mapping] has exactly the nine keys [python], [numpy],
    [qiskit], [mqt], [core], [ddsim], [qcec], [qecc] and [syrec]; each key is
    mapped to the pair of the address of its documentation site, as listed
    below, and [None]; and every address is an [https] address with a host
    name. *)
Theorem intersphinx_mapping_nine_sites :
  dom conf.intersphinx_mapping =
    {["python"; "numpy"; "qiskit"; "mqt"; "core"; "ddsim"; "qcec"; "qecc";
      "syrec"]} ∧
  size conf.intersphinx_mapping = 9 ∧
  conf.intersphinx_mapping !! "python" =
    Some ("https://docs.python.org/3", None) ∧
  conf.intersphinx_mapping !! "numpy" =
    Some ("https://numpy.org/doc/stable/", None) ∧
  conf.intersphinx_mapping !! "qiskit" =
    Some ("https://docs.quantum.ibm.com/api/qiskit", None) ∧
  conf.intersphinx_mapping !! "mqt" =
    Some ("https://mqt.readthedocs.io/en/latest", None) ∧
  conf.intersphinx_mapping !! "core" =
    Some ("https://mqt.readthedocs.io/projects/core/en/latest", None) ∧
  conf.intersphinx_mapping !! "ddsim" =
    Some ("https://mqt.readthedocs.io/projects/ddsim/en/latest", None) ∧
  conf.intersphinx_mapping !! "qcec" =
    Some ("https://mqt.readthedocs.io/projects/qcec/en/latest", None) ∧
  conf.intersphinx_mapping !! "qecc" =
    Some ("https://mqt.readthedocs.io/projects/qecc/en/latest", None) ∧
  conf.intersphinx_mapping !! "syrec" =
    Some ("https://mqt.readthedocs.io/projects/syrec/en/latest", None) ∧
  (∀ k site, conf.intersphinx_mapping !! k = Some site →
             is_url site.1 = true ∧ site.2 = None).
Proof.
  assert (Hdom : dom conf.intersphinx_mapping =
    {["python"; "numpy"; "qiskit"; "mqt"; "core"; "ddsim"; "qcec"; "qecc";
      "syrec"]}).
  { unfold conf.intersphinx_mapping. rewrite dict_display_dom. cbn. set_solver. }
  split; [done|]. split.
  { rewrite <- size_dom, Hdom.
    rewrite !size_union, !size_singleton; [done|set_solver..]. }
  do 9 (split; [reflexivity|]).
  unfold conf.intersphinx_mapping.
  apply (dict_display_Forall (λ _ site, is_url site.1 = true ∧ site.2 = None)).
  repeat constructor.
Qed.

Lemma intersphinx_mapping_nine_sites_witness :
  conf.intersphinx_mapping !! "qiskit" =
    Some ("https://docs.quantum.ibm.com/api/qiskit", None) ∧
  is_url "https://docs.quantum.ibm.com/api/qiskit" = true ∧
  (@None string) = None.
Proof.
  split; [reflexivity|].
  apply (proj2 (proj2 (proj2 (proj2 (proj2 (proj2 (proj2 (proj2 (proj2 (proj2
           (proj2 intersphinx_mapping_nine_sites)))))))))) "qiskit"
           ("https://docs.quantum.ibm.com/api/qiskit", None)).
  reflexivity.
Defined.

End conf_facts.

(** ** The package initialiser *)

Section naviz_facts.
Import Py.
Implicit Types (modules : gmap string namespace) (g ns : namespace).

(** What a successful run of the initialiser leaves in the namespace. *)
Lemma init_ok modules g0 ns :
  naviz.init modules g0 = Ok ns →
  ∃ a v,
    import_from modules "__future__" "annotations" = Ok a ∧
    import_from modules "mqt.naviz._version" "version" = Ok v ∧
    ns = <["__all__" := VList [VStr "__version__"]]>
           (<["__version__" := v]>
             (<["_version" := VModule "mqt.naviz._version"]>
               (<["annotations" := a]>
                 (<["__doc__" := VStr "MQT NAViz library."]> g0)))).
Proof.
  unfold naviz.init, naviz.body. cbn [exec].
  unfold naviz.docstring, naviz.import_annotations, naviz.import_version,
    naviz.assign_all.
  change (naviz.relative_version) with "mqt.naviz._version".
  cbn [mbind result_bind].
  destruct (import_from modules "__future__" "annotations") as [a|e]; [|done].
  destruct (import_from modules "mqt.naviz._version" "version") as [v|e]; [|done].
  intros [= <-]. by exists a, v.
Qed.

(** The initialiser runs to its end when both of its imports succeed. *)
Lemma init_runs modules g0 a v :
  import_from modules "__future__" "annotations" = Ok a →
  import_from modules "mqt.naviz._version" "version" = Ok v →
  ∃ ns, naviz.init modules g0 = Ok ns.
Proof.
  intros Ha Hv. unfold naviz.init, naviz.body. cbn [exec].
  unfold naviz.docstring, naviz.import_annotations, naviz.import_version,
    naviz.assign_all.
  change (naviz.relative_version) with "mqt.naviz._version".
  cbn [mbind result_bind]. rewrite Ha, Hv. by eexists.
Qed.

Lemma import_from_ok modules name m attr v :
  modules !! name = Some m → m !! attr = Some v →
  import_from modules name attr = Ok v.
Proof. intros Hm Hv. unfold import_from. by rewrite Hm, Hv. Qed.

(** Without [__all__], a wildcard import skips the names that start with an
    underscore: [__version__] would not be bound by it. *)
Example import_star_without_all :
  import_star {["__version__" := VStr "0.3.1"; "annotations" := VFeature "annotations"]}
  = Ok {["annotations" := VFeature "annotations"]}.
Proof. by vm_compute. Qed.

(** The initialiser fails with [ImportError] when the generated module
    lacks [version]. *)
Example init_without_version :
  naviz.init {["__future__" := future_module; "mqt.naviz._version" := ∅]} ∅
  = Raise ImportError.
Proof. reflexivity. Qed.

(** C1: when the initialiser's imports succeed, it runs to its end and the
    namespace of [mqt.naviz] then has the attribute [__version__], bound to
    the very object that [mqt.naviz._version] binds to [version]. *)
Theorem init_exposes_version modules g0 fut a ver v :
  modules !! "__future__" = Some fut → fut !! "annotations" = Some a →
  modules !! "mqt.naviz._version" = Some ver → ver !! "version" = Some v →
  ∃ ns, naviz.init modules g0 = Ok ns ∧ ns !! "__version__" = Some v.
Proof.
  intros Hfut Ha Hver Hv.
  pose proof (import_from_ok _ _ _ _ _ Hfut Ha) as Himp_a.
  pose proof (import_from_ok _ _ _ _ _ Hver Hv) as Himp_v.
  destruct (init_runs modules g0 a v Himp_a Himp_v) as [ns Hns].
  exists ns. split; [done|].
  apply init_ok in Hns as (a' & v' & _ & Hv' & ->).
  rewrite Himp_v in Hv'. injection Hv' as <-.
  rewrite lookup_insert_ne by done. apply lookup_insert_eq.
Qed.

Lemma init_exposes_version_witness :
  ∃ ns, naviz.init installed_modules ∅ = Ok ns ∧
        ns !! "__version__" = Some (VStr "0.3.1.dev4+g1a2b3c4").
Proof.
  apply (init_exposes_version installed_modules ∅
           future_module (VFeature "annotations")
           version_module (VStr "0.3.1.dev4+g1a2b3c4"));
    reflexivity.
Defined.

(** C8: after the initialiser has run, [__all__] is the list
    [["__version__"]], and [from mqt.naviz import *] binds the one name
    [__version__], to the imported version, and no other name. *)
Theorem all_is_version_only modules g0 ns :
  naviz.init modules g0 = Ok ns →
  ns !! "__all__" = Some (VList [VStr "__version__"]) ∧
  ∃ v, import_from modules "mqt.naviz._version" "version" = Ok v ∧
       import_star ns = Ok {["__version__" := v]}.
Proof.
  intros (a & v & _ & Hv & ->)%init_ok.
  split; [apply lookup_insert_eq|].
  exists v. split; [done|].
  unfold import_star. rewrite lookup_insert_eq.
  cbn [str_items mbind result_bind getattrs].
  rewrite lookup_insert_ne by done. rewrite lookup_insert_eq.
  by rewrite insert_empty.
Qed.

Lemma all_is_version_only_witness :
  ∃ ns, naviz.init installed_modules ∅ = Ok ns ∧
        ns !! "__all__" = Some (VList [VStr "__version__"]) ∧
        ∃ v, import_from installed_modules "mqt.naviz._version" "version" = Ok v ∧
             import_star ns = Ok {["__version__" := v]}.
Proof.
  destruct (naviz.init installed_modules ∅) as [ns|e] eqn:Hinit.
  - exists ns. split; [reflexivity|].
    exact (all_is_version_only installed_modules ∅ ns Hinit).
  - vm_compute in Hinit. discriminate Hinit.
Defined.

(** C5, as the specification words it, fails: the initialiser is not a
    file of one line, it has seventeen. *)
Lemma init_is_not_one_line :
  length naviz.source = 17 ∧ length naviz.source ≠ 1.
Proof. split; [reflexivity|]. cbn. lia. Qed.

(** C5, amended: the initialiser is seventeen lines long, seven of them
    comments, four blank and six code; the code is four statements; and
    exactly one line, line 13, is the import that exposes the version
    string. *)
Theorem init_source_layout modules :
  length naviz.source = 17 ∧
  length (filter naviz.is_comment naviz.source) = 7 ∧
  length (filter naviz.is_blank naviz.source) = 4 ∧
  length (filter naviz.is_code naviz.source) = 6 ∧
  length (naviz.body modules) = 4 ∧
  filter naviz.is_version_import naviz.source =
    ["from ._version import version as __version__"] ∧
  naviz.source !! 12 = Some "from ._version import version as __version__".
Proof.
  split; [reflexivity|].
  split; [by vm_compute|].
  split; [by vm_compute|].
  split; [by vm_compute|].
  split; [reflexivity|].
  split; [by vm_compute|reflexivity].
Qed.

End naviz_facts.


(** ** More on [release] and the version *)

Section release_facts.
Import Py.
Implicit Types (v r public local sep cur s t : string).

Lemma prefix_before_label c public local :
  contains public c = false →
  prefix_before c (public +:+ String c local) = public.
Proof.
  induction public as [|a public IH]; cbn.
  - intros _. change (EmptyString +:+ String c local) with (String c local).
    cbn. by rewrite Ascii.eqb_refl.
  - destruct (Ascii.eqb a c) eqn:E; [done|]. intros H.
    rewrite app_cons. cbn. rewrite E. by rewrite IH.
Qed.

Lemma contains_prefix_before c s :
  prefix_before c s = s → contains s c = false.
Proof. intros <-. apply prefix_before_contains. Qed.

(** On a version string, [release_opt] is [release]. *)
Lemma release_opt_of_string (metadata_version : string → result string) :
  conf.release_opt (λ name, v ← metadata_version name; Ok (Some v))
  = conf.release metadata_version.
Proof.
  unfold conf.release_opt, conf.version_opt, conf.release, conf.version.
  by destruct (metadata_version "mqt.naviz").
Qed.

(** Computing [release] raises in exactly two cases: [metadata.version]
    raises, and [release] raises the same exception; or [metadata.version]
    returns [None], and [release] raises [AttributeError]. On a version
    string the split and the subscription add no failure of their own, and
    [release] is the part of the string before its first ["+"]. *)
Theorem release_raises_iff (metadata_version : string → result (option string)) e :
  (conf.release_opt metadata_version = Raise e ↔
     metadata_version "mqt.naviz" = Raise e ∨
     (metadata_version "mqt.naviz" = Ok None ∧ e = AttributeError)) ∧
  (∀ v, metadata_version "mqt.naviz" = Ok (Some v) →
        conf.release_opt metadata_version = Ok (prefix_before "+" v)).
Proof.
  unfold conf.release_opt, conf.version_opt.
  destruct (metadata_version "mqt.naviz") as [[v|]|e']; cbn [mbind result_bind].
  - rewrite release_of_eq. split.
    + split; [intros [=]|]. by intros [[=]|[[=] _]].
    + by intros ? [= <-].
  - split; [|done]. split.
    + intros [= <-]. by right.
    + by intros [[=]|[_ ->]].
  - split; [|done]. split.
    + intros [= ->]. by left.
    + by intros [[= ->]|[[=] _]].
Qed.

Lemma release_raises_iff_witness :
  conf.release_opt (λ _, Ok None) = Raise AttributeError.
Proof.
  apply (proj2 (proj1 (release_raises_iff (λ _, Ok None) AttributeError))).
  right. split; reflexivity.
Defined.

(** A version made of a public part without ["+"], a ["+"] and a local
    label has the public part as its release, whatever the label holds. *)
Theorem release_drops_local_label public local :
  contains public "+" = false →
  conf.release_of (public +:+ "+" +:+ local) = Ok public.
Proof.
  intros Hpub. rewrite release_of_eq. f_equal.
  change ("+" +:+ local) with (String "+" local).
  by apply prefix_before_label.
Qed.

Lemma release_drops_local_label_witness :
  contains "0.3.1.dev4" "+" = false ∧
  conf.release_of ("0.3.1.dev4" +:+ "+" +:+ "g1a2b3c4+dirty") = Ok "0.3.1.dev4".
Proof.
  split; [reflexivity|].
  apply (release_drops_local_label "0.3.1.dev4" "g1a2b3c4+dirty"). reflexivity.
Defined.

(** Filtering a release again changes nothing. *)
Theorem release_of_idempotent v r :
  conf.release_of v = Ok r → conf.release_of r = Ok r.
Proof.
  rewrite !release_of_eq. intros [= <-]. f_equal.
  apply prefix_before_absent, prefix_before_contains.
Qed.

Lemma release_of_idempotent_witness :
  conf.release_of "0.3.1.dev4+g1a2b3c4" = Ok "0.3.1.dev4" ∧
  conf.release_of "0.3.1.dev4" = Ok "0.3.1.dev4".
Proof.
  split; [reflexivity|].
  apply (release_of_idempotent "0.3.1.dev4+g1a2b3c4" "0.3.1.dev4"). reflexivity.
Defined.

(** The release is the empty string exactly when the version is empty or
    starts with ["+"]. *)
Theorem release_of_empty_iff v :
  conf.release_of v = Ok EmptyString ↔
  v = EmptyString ∨ ∃ rest, v = String "+" rest.
Proof.
  rewrite release_of_eq. destruct v as [|a v]; cbn.
  - split; [by left|done].
  - destruct (Ascii.eqb a "+") eqn:E.
    + apply Ascii.eqb_eq in E as ->. split; [|done]. right. by exists v.
    + split; [intros [=]|].
      intros [[=]|[rest [= -> _]]]. by rewrite Ascii.eqb_refl in E.
Qed.

(** [myst_substitutions] has the one key [version], bound to the version as
    [metadata.version] returned it; [release] is a prefix of that value, and
    the two are equal exactly when the version holds no ["+"]. *)
Theorem myst_substitutions_full_version
    (metadata_version : string → result string) v :
  metadata_version "mqt.naviz" = Ok v →
  conf.myst_substitutions metadata_version = Ok {["version" := v]} ∧
  ∃ r, conf.release metadata_version = Ok r ∧
       String.prefix r v = true ∧
       (r = v ↔ contains v "+" = false).
Proof.
  intros Hv. unfold conf.myst_substitutions, conf.release, conf.version.
  rewrite Hv. cbn [mbind result_bind]. split.
  - unfold dict_display. cbn. by rewrite insert_empty.
  - exists (prefix_before "+" v). split; [apply release_of_eq|].
    split; [apply prefix_before_prefix|].
    split; [apply contains_prefix_before|apply prefix_before_absent].
Qed.

Lemma myst_substitutions_full_version_witness :
  conf.myst_substitutions (λ _, Ok "0.3.1.dev4+g1a2b3c4")
    = Ok {["version" := "0.3.1.dev4+g1a2b3c4"]} ∧
  ∃ r, conf.release (λ _, Ok "0.3.1.dev4+g1a2b3c4") = Ok r ∧
       String.prefix r "0.3.1.dev4+g1a2b3c4" = true ∧
       (r = "0.3.1.dev4+g1a2b3c4" ↔ contains "0.3.1.dev4+g1a2b3c4" "+" = false).
Proof.
  apply (myst_substitutions_full_version (λ _, Ok "0.3.1.dev4+g1a2b3c4")).
  reflexivity.
Defined.

End release_facts.

(** ** Splitting and joining *)

Section split_join.
Import Py.
Implicit Types (v sep cur s t pre : string).

(** A separator that matches at the head of a text is followed by the rest
    of the text. *)
Lemma prefix_decompose sep s :
  String.prefix sep s = true → ∃ t, s = sep +:+ t.
Proof.
  revert sep. induction s as [|b s IH]; intros [|a sep] H; cbn in H.
  - by exists EmptyString.
  - done.
  - by exists (String b s).
  - destruct (ascii_dec a b) as [->|]; [|done].
    destruct (IH _ H) as [t ->]. by exists t.
Qed.

Lemma str_join_cons sep x y ys :
  str_join sep (x :: y :: ys) = x +:+ sep +:+ str_join sep (y :: ys).
Proof. reflexivity. Qed.

(** Joining what the scan yields gives back the collected piece followed by
    the text after the [skip] characters still to be passed over. *)
Lemma split_from_join sep s :
  sep ≠ EmptyString →
  ∀ skip cur pre t,
    s = pre +:+ t → String.length pre = skip →
    str_join sep (split_from sep skip cur s) = cur +:+ t.
Proof.
  intros Hsep. induction s as [|a s IH]; intros skip cur pre t Hs Hlen.
  - destruct pre as [|b pre]; [|done]. cbn in Hlen. subst skip.
    change (EmptyString +:+ t) with t in Hs. subst t. cbn.
    by rewrite app_empty_r.
  - destruct skip as [|k].
    + destruct pre as [|b pre]; [|done].
      change (EmptyString +:+ t) with t in Hs. subst t.
      cbn [split_from].
      destruct (String.prefix sep (String a s)) eqn:Hmatch.
      * destruct (prefix_decompose _ _ Hmatch) as [t' Ht'].
        destruct sep as [|c sep']; [done|].
        rewrite app_cons in Ht'. injection Ht' as -> Hs'.
        cbn [String.length]. rewrite Nat.sub_1_r. cbn [Nat.pred].
        pose proof (IH (String.length sep') EmptyString sep' t' Hs' eq_refl) as Hrest.
        destruct (split_from_nonempty (String c sep') (String.length sep')
                    EmptyString s) as (y & ys & Hy).
        rewrite Hy in Hrest |- *. rewrite str_join_cons, Hrest.
        change (EmptyString +:+ t') with t'.
        by rewrite Hs', <- app_cons.
      * rewrite (IH 0 (cur +:+ String a EmptyString) EmptyString s eq_refl eq_refl).
        apply app_snoc.
    + destruct pre as [|b pre]; [done|].
      rewrite app_cons in Hs. injection Hs as -> Hs.
      cbn in Hlen. injection Hlen as Hlen.
      cbn [split_from]. by apply (IH k cur pre t).
Qed.

(** Joining the pieces of [v.split(sep)] with [sep] gives back [v], for
    every separator the split accepts. *)
Theorem split_join_round_trip v sep parts :
  str_split v sep = Ok parts → str_join sep parts = v.
Proof.
  unfold str_split. destruct sep as [|c sep']; [done|].
  intros [= <-].
  by apply (split_from_join (String c sep') v ltac:(done) 0 EmptyString EmptyString v).
Qed.

Lemma split_join_round_trip_witness :
  str_split "0.3.1.dev4+g1a2b3c4+dirty" "+"
    = Ok ["0.3.1.dev4"; "g1a2b3c4"; "dirty"] ∧
  str_join "+" ["0.3.1.dev4"; "g1a2b3c4"; "dirty"] = "0.3.1.dev4+g1a2b3c4+dirty".
Proof.
  split; [reflexivity|].
  apply (split_join_round_trip "0.3.1.dev4+g1a2b3c4+dirty" "+"). reflexivity.
Defined.

End split_join.

(** ** More on the package initialiser *)

Section init_facts.
Import Py.
Implicit Types (modules : gmap string namespace) (g ns : namespace).

(** The names a run of the initialiser can touch: the four it assigns, the
    submodule [_version], which the import system binds in the package when
    it loads it, and [__builtins__], which the interpreter adds to the
    namespace of any code it runs. *)
Local Abbreviation touched_names :=
  ({["__doc__"; "annotations"; "_version"; "__version__"; "__all__";
     "__builtins__"]} : gset string).



(** Running the initialiser again on the namespace it produced, as a reload
    of the package does, succeeds and leaves the namespace unchanged. *)
Theorem init_reload modules g0 ns :
  naviz.init modules g0 = Ok ns → naviz.init modules ns = Ok ns.
Proof.
  intros (a & v & Ha & Hv & Hns)%init_ok.
  destruct (init_runs modules ns a v Ha Hv) as [ns' Hns'].
  rewrite Hns'. f_equal.
  apply init_ok in Hns' as (a' & v' & Ha' & Hv' & ->).
  rewrite Ha in Ha'. rewrite Hv in Hv'. injection Ha' as <-. injection Hv' as <-.
  subst ns. apply map_eq. intros k.
  rewrite !lookup_insert. repeat case_decide; done.
Qed.

Lemma init_reload_witness :
  ∃ ns, naviz.init installed_modules ∅ = Ok ns ∧
        naviz.init installed_modules ns = Ok ns.
Proof.
  destruct (naviz.init installed_modules ∅) as [ns|e] eqn:Hinit.
  - exists ns. split; [reflexivity|].
    exact (init_reload installed_modules ∅ ns Hinit).
  - vm_compute in Hinit. discriminate Hinit.
Defined.

End init_facts.

(** ** The pieces of a version *)

Section pieces.
Import Py.
Implicit Types (v cur s : string) (a c : ascii).

Lemma contains_snoc cur a c :
  contains cur c = false → Ascii.eqb a c = false →
  contains (cur +:+ String a EmptyString) c = false.
Proof.
  intros Hcur Ha. induction cur as [|b cur IH]; cbn in *.
  - change (EmptyString +:+ String a EmptyString) with (String a EmptyString).
    cbn. by rewrite Ha.
  - rewrite app_cons. cbn. destruct (Ascii.eqb b c); [done|]. by apply IH.
Qed.

Lemma split_from_pieces c cur s :
  contains cur c = false →
  Forall (λ piece, contains piece c = false)
         (split_from (String c EmptyString) 0 cur s) ∧
  length (split_from (String c EmptyString) 0 cur s) = S (count_char s c).
Proof.
  revert cur. induction s as [|a s IH]; intros cur Hcur;
    cbn [split_from count_char].
  - split; [by constructor|done].
  - rewrite prefix_single. destruct (Ascii.eqb a c) eqn:E.
    + destruct (IH EmptyString eq_refl) as [Hall Hlen]. split.
      * by constructor.
      * cbn [length]. f_equal. exact Hlen.
    + apply IH. by apply contains_snoc.
Qed.

(** [version.split("+")] has one piece more than there are ["+"] in the
    version, and no piece holds a ["+"]. *)
Theorem version_pieces v :
  ∃ parts, str_split v "+" = Ok parts ∧
           length parts = S (count_char v "+") ∧
           Forall (λ piece, contains piece "+" = false) parts.
Proof.
  exists (split_from "+" 0 EmptyString v). split; [done|].
  destruct (split_from_pieces "+" EmptyString v eq_refl) as [Hall Hlen].
  by split.
Qed.

End pieces.
